(** * retry: delay strategies and the retry engine

    A shallow embedding of [option.go] and [retry.go] of the Go package
    [retry].

    Conventions.
    - Go's [int] and [int64] (hence [time.Duration]) are 64-bit two's
      complement integers: a value is a [Z] and every arithmetic result is
      passed through [wrap64].
    - A Go [error] is an interface value: [Nil], an error of an ordinary
      dynamic type, or a [breakError] struct embedding another error.
    - A run-time panic is an explicit outcome. *)

From Stdlib Require Import ZArith List String Bool Lia.
Import ListNotations.
Local Open Scope Z_scope.

(** ** Machine integers *)

Definition int64_min : Z := - 2 ^ 63.
Definition int64_max : Z := 2 ^ 63 - 1.

Definition in_int64 (z : Z) : Prop := int64_min <= z <= int64_max.

(** Two's complement wrap-around of a mathematical integer into 64 bits. *)
Definition wrap64 (z : Z) : Z := (z + 2 ^ 63) mod 2 ^ 64 - 2 ^ 63.

(** [time.Duration] is an [int64] counting nanoseconds. *)
Definition Duration : Type := Z.

(** ** Errors *)

Inductive error : Type :=
| Nil
| Err (msg : string)
| breakError (inner : error).

(** [func Break(err error) error { return breakError{err} }] *)
Definition Break (err : error) : error := breakError err.

Definition is_nil (e : error) : bool :=
  match e with Nil => true | _ => false end.

(** An error the engine may retry: non-nil and not a [breakError]. *)
Definition retryable (e : error) : Prop :=
  match e with Err _ => True | _ => False end.

(** ** Outcomes of a call that may panic *)

Inductive outcome (A : Type) : Type :=
| Returns (a : A)
| Panics (msg : string).
Arguments Returns {A} a.
Arguments Panics {A} msg.

(** ** Delay strategies ([option.go]) *)

(** [FixedDelay]: the closure ignores both arguments. *)
Definition FixedDelay (delay : Duration) (n : Z) (err : error) : Duration :=
  delay.

(** [LinearDelay]: [delay := baseDelay * time.Duration(n+1)], replaced by
    [maxDelay] when [delay > maxDelay || delay < 0]. *)
Definition LinearDelay (baseDelay maxDelay : Duration) (n : Z) (err : error)
  : Duration :=
  let delay := wrap64 (baseDelay * wrap64 (n + 1)) in
  if (maxDelay <? delay) || (delay <? 0) then maxDelay else delay.

(** [ExponentialDelay]: [delay := baseDelay << n].  A negative shift count
    panics; a count of 64 or more shifts every bit out. *)
Definition ExponentialDelay (baseDelay maxDelay : Duration) (n : Z)
  (err : error) : outcome Duration :=
  if n <? 0 then Panics "negative shift amount"
  else
    let delay := wrap64 (Z.shiftl baseDelay n) in
    Returns (if (maxDelay <? delay) || (delay <? 0) then maxDelay else delay).

(** [rand.Int63n] of the Go library [math/rand], which is outside the
    repository: it panics when [n <= 0] and otherwise returns some value of
    the half-open interval [0, n).  [raw] stands for the generator's draw. *)
Definition Int63n (raw : Z) (n : Z) : outcome Z :=
  if n <=? 0 then Panics "invalid argument to Int63n"
  else Returns (raw mod n).

(** The two assignments [RandomDelay] performs before it builds the closure:
    the pair of bounds the closure captures. *)
Definition RandomDelay_bounds (minDelay maxDelay : Duration)
  : Duration * Duration :=
  let minDelay := if minDelay <? 0 then 0 else minDelay in
  let maxDelay := if maxDelay <? minDelay then minDelay else maxDelay in
  (minDelay, maxDelay).

(** [RandomDelay]: the closure body, run with the captured bounds. *)
Definition RandomDelay (minDelay maxDelay : Duration) (raw : Z) (n : Z)
  (err : error) : outcome Duration :=
  let '(minDelay, maxDelay) := RandomDelay_bounds minDelay maxDelay in
  let delay := minDelay in
  if minDelay <? maxDelay then
    match Int63n raw (wrap64 (wrap64 (maxDelay - minDelay) + 1)) with
    | Returns r => Returns (wrap64 (delay + r))
    | Panics msg => Panics msg
    end
  else Returns delay.

(** ** The retry engine ([retry.go]) *)

Section Engine.

(** Everything the caller's closures can read or write, the clock and the
    state of the [context.Context] included.  The [Config] itself is kept
    apart from it: the closures are assumed not to hold the [*Config]. *)
Variable W : Type.

(** [type OnRetryFunc func(n int)] *)
Definition OnRetryFunc : Type := Z -> W -> W.

(** [type OnFailedFunc func(n int, err error)] *)
Definition OnFailedFunc : Type := Z -> error -> W -> W.

(** [type DelayStrategy func(n int, err error) time.Duration]; the field of
    [Config] has the name [DelayStrategy], so the type is given another. *)
Definition DelayStrategyFunc : Type := Z -> error -> W -> Duration * W.

(** A strategy that touches nothing, such as [FixedDelay] or [LinearDelay]. *)
Definition pure_strategy (f : Z -> error -> Duration) : DelayStrategyFunc :=
  fun n err w => (f n err, w).

(** [type Config struct]; a [nil] function value is [None]. *)
Record Config : Type := mkConfig {
  RetryTimes : Z;
  OnRetry : option OnRetryFunc;
  OnFailed : option OnFailedFunc;
  DelayStrategy : option DelayStrategyFunc
}.

(** [type Option func(c *Config)] and the four option builders. *)
Definition Option : Type := Config -> Config.

Definition WithTimes (retryTimes : Z) : Option :=
  fun c => mkConfig retryTimes (OnRetry c) (OnFailed c) (DelayStrategy c).

Definition WithOnRetryFunc (fn : OnRetryFunc) : Option :=
  fun c => mkConfig (RetryTimes c) (Some fn) (OnFailed c) (DelayStrategy c).

Definition WithOnFailedFunc (fn : OnFailedFunc) : Option :=
  fun c => mkConfig (RetryTimes c) (OnRetry c) (Some fn) (DelayStrategy c).

Definition WithDelayStrategy (delayType : DelayStrategyFunc) : Option :=
  fun c => mkConfig (RetryTimes c) (OnRetry c) (OnFailed c) (Some delayType).

(** [NewConfig]: the options applied in order to the zero [Config]. *)
Definition NewConfig (opts : list Option) : Config :=
  fold_left (fun config opt => opt config) opts (mkConfig 0 None None None).

(** Which case of the [select] statement ran. *)
Inductive select_case : Type := TimerFired | CtxDone.

(** The two ways the engine uses its [context.Context]: [ctx.Err()], and the
    [select] between [time.After(d)] and [ctx.Done()], which lets time pass
    and tells which channel was received from. *)
Record Context : Type := mkContext {
  ctx_Err : W -> error;
  ctx_select : Duration -> W -> select_case * W
}.

(** The operation [fn func() error]: a closure, whose result may depend on
    how many times it has been invoked before and on the world. *)
Definition Operation : Type := nat -> W -> error * W.

(** What a run can be observed to do, in order. *)
Inductive event : Type :=
| EvOp (k : nat) (result : error)
| EvRetry (n : Z)
| EvFailed (n : Z) (err : error)
| EvDelay (n : Z) (err : error) (d : Duration)
| EvSelect (d : Duration) (c : select_case).

(** The memory a run works on: the [Config] behind the receiver pointer, the
    world and the number of invocations of the operation so far. *)
Record state : Type := mkState {
  st_config : Config;
  st_world : W;
  st_calls : nat
}.

(** A computation ends with a value, a new state and the events it caused,
    or panics, or is cut off by the fuel of the loop. *)
Inductive run (A : Type) : Type :=
| Done (a : A) (s : state) (t : list event)
| Panic (msg : string)
| OutOfFuel.
Arguments Done {A} a s t.
Arguments Panic {A} msg.
Arguments OutOfFuel {A}.

Definition M (A : Type) : Type := state -> run A.

Definition ret {A : Type} (a : A) : M A := fun s => Done a s [].

Definition bind {A B : Type} (m : M A) (f : A -> M B) : M B :=
  fun s =>
    match m s with
    | Done a s1 t1 =>
        match f a s1 with
        | Done b s2 t2 => Done b s2 (t1 ++ t2)
        | Panic msg => Panic msg
        | OutOfFuel => OutOfFuel
        end
    | Panic msg => Panic msg
    | OutOfFuel => OutOfFuel
    end.

Notation "x <- m ;; k" := (bind m (fun x => k))
  (at level 61, m at next level, right associativity).
Notation "m ;;; k" := (bind m (fun _ => k))
  (at level 61, right associativity).

Definition get_config : M Config := fun s => Done (st_config s) s [].

Definition set_config (c : Config) : M unit :=
  fun s => Done tt (mkState c (st_world s) (st_calls s)) [].

Definition set_world (s : state) (w : W) : state :=
  mkState (st_config s) w (st_calls s).

Variable ctx : Context.
Variable fn : Operation.

(** [ctx.Err()] *)
Definition call_ctx_Err : M error :=
  fun s => Done (ctx_Err ctx (st_world s)) s [].

(** [fn()] *)
Definition call_fn : M error :=
  fun s =>
    let '(result, w) := fn (st_calls s) (st_world s) in
    Done result (mkState (st_config s) w (S (st_calls s)))
         [EvOp (st_calls s) result].

(** [config.OnRetry(n)]; calling a nil function value panics. *)
Definition call_OnRetry (n : Z) : M unit :=
  fun s =>
    match OnRetry (st_config s) with
    | Some f => Done tt (set_world s (f n (st_world s))) [EvRetry n]
    | None => Panic "nil func"
    end.

(** [config.OnFailed(n, err)] *)
Definition call_OnFailed (n : Z) (err : error) : M unit :=
  fun s =>
    match OnFailed (st_config s) with
    | Some f => Done tt (set_world s (f n err (st_world s))) [EvFailed n err]
    | None => Panic "nil func"
    end.

(** [config.DelayStrategy(n, err)] *)
Definition call_DelayStrategy (n : Z) (err : error) : M Duration :=
  fun s =>
    match DelayStrategy (st_config s) with
    | Some f =>
        let '(d, w) := f n err (st_world s) in
        Done d (set_world s w) [EvDelay n err d]
    | None => Panic "nil func"
    end.

(** [select { case <-time.After(d): ... case <-ctx.Done(): ... }] *)
Definition select_After_or_Done (d : Duration) : M select_case :=
  fun s =>
    let '(c, w) := ctx_select ctx d (st_world s) in
    Done c (set_world s w) [EvSelect d c].

(** How one pass through the body of the [for] loop ends. *)
Inductive control : Type :=
| Return (err : error)
| Next (n : Z).

(** [v, breakRetry := err.(breakError); if breakRetry { err = v.error }] *)
Definition unwrap_break (err : error) : error * bool :=
  match err with
  | breakError inner => (inner, true)
  | _ => (err, false)
  end.

(** The body of the [for] loop of [Config.Do], entered with counter [n]. *)
Definition body (n : Z) : M control :=
  (if 0 <? n then call_OnRetry n else ret tt) ;;;
  err <- call_fn ;;
  let '(err, breakRetry) := unwrap_break err in
  if is_nil err then ret (Return Nil)
  else
    call_OnFailed n err ;;;
    config <- get_config ;;
    let breakRetry := if RetryTimes config <=? n then true else breakRetry in
    if breakRetry then ret (Return err)
    else
      d <- call_DelayStrategy n err ;;
      c <- select_After_or_Done d ;;
      match c with
      | TimerFired => ret (Next (wrap64 (n + 1)))
      | CtxDone => err <- call_ctx_Err ;; ret (Return err)
      end.

(** [for { ... }]: the body, again and again, while the fuel lasts. *)
Fixpoint loop (fuel : nat) (n : Z) : M error :=
  match fuel with
  | O => fun _ => OutOfFuel
  | S fuel' =>
      c <- body n ;;
      match c with
      | Return err => ret err
      | Next n' => loop fuel' n'
      end
  end.

(** The three [if config.X == nil { config.X = ... }] of [Config.Do]. *)
Definition default_OnRetry : M unit :=
  config <- get_config ;;
  match OnRetry config with
  | None =>
      set_config (mkConfig (RetryTimes config) (Some (fun n w => w))
                           (OnFailed config) (DelayStrategy config))
  | Some _ => ret tt
  end.

Definition default_OnFailed : M unit :=
  config <- get_config ;;
  match OnFailed config with
  | None =>
      set_config (mkConfig (RetryTimes config) (OnRetry config)
                           (Some (fun n err w => w)) (DelayStrategy config))
  | Some _ => ret tt
  end.

Definition default_DelayStrategy : M unit :=
  config <- get_config ;;
  match DelayStrategy config with
  | None =>
      set_config (mkConfig (RetryTimes config) (OnRetry config)
                           (OnFailed config)
                           (Some (pure_strategy (FixedDelay 0))))
  | Some _ => ret tt
  end.

(** [func (config *Config) Do(ctx context.Context, fn func() error) error] *)
Definition Config_Do (fuel : nat) : M error :=
  err <- call_ctx_Err ;;
  if negb (is_nil err) then ret err
  else
    default_OnRetry ;;;
    default_OnFailed ;;;
    default_DelayStrategy ;;;
    loop fuel 0.

(** A run of [config.Do(ctx, fn)] on a [Config] and a world, the operation
    not yet invoked. *)
Definition run_Do (fuel : nat) (config : Config) (w : W) : run error :=
  Config_Do fuel (mkState config w O).

(** [func Do(ctx, fn, opts...) error { return NewConfig(opts...).Do(ctx, fn) }] *)
Definition Do (fuel : nat) (opts : list Option) (w : W) : run error :=
  run_Do fuel (NewConfig opts) w.

End Engine.

Arguments mkConfig {W} _ _ _ _.
Arguments RetryTimes {W} _.
Arguments OnRetry {W} _.
Arguments OnFailed {W} _.
Arguments DelayStrategy {W} _.
Arguments WithTimes {W} _ _.
Arguments WithOnRetryFunc {W} _ _.
Arguments WithOnFailedFunc {W} _ _.
Arguments WithDelayStrategy {W} _ _.
Arguments NewConfig {W} _.
Arguments mkContext {W} _ _.
Arguments ctx_Err {W} _ _.
Arguments ctx_select {W} _ _ _.
Arguments mkState {W} _ _ _.
Arguments st_config {W} _.
Arguments st_world {W} _.
Arguments st_calls {W} _.
Arguments Done {W A} _ _ _.
Arguments Panic {W A} _.
Arguments OutOfFuel {W A}.
Arguments pure_strategy {W} _ _ _ _.
Arguments body {W} _ _ _ _.
Arguments loop {W} _ _ _ _ _.
Arguments Config_Do {W} _ _ _ _.
Arguments run_Do {W} _ _ _ _ _.
Arguments Do {W} _ _ _ _ _.

(** ** Reading a run *)

Definition result_of {W : Type} (r : run W error) : option error :=
  match r with Done e _ _ => Some e | _ => None end.

Definition trace_of {W A : Type} (r : run W A) : list event :=
  match r with Done _ _ t => t | _ => [] end.

Definition config_of {W A : Type} (r : run W A) : option (Config W) :=
  match r with Done _ s _ => Some (st_config s) | _ => None end.

(** The results of the invocations of the operation, in order. *)
Definition op_results (t : list event) : list error :=
  flat_map (fun ev => match ev with EvOp _ r => [r] | _ => [] end) t.

(** The arguments of the calls of [OnRetry], in order. *)
Definition retry_calls (t : list event) : list Z :=
  flat_map (fun ev => match ev with EvRetry n => [n] | _ => [] end) t.

(** The arguments of the calls of [OnFailed], in order. *)
Definition failed_calls (t : list event) : list (Z * error) :=
  flat_map (fun ev => match ev with EvFailed n e => [(n, e)] | _ => [] end) t.

(** The arguments of the calls of the delay strategy, in order. *)
Definition delay_calls (t : list event) : list (Z * error) :=
  flat_map (fun ev => match ev with EvDelay n e _ => [(n, e)] | _ => [] end) t.

(** The [select] statements lost to the cancellation signal. *)
Definition cancellations (t : list event) : list Duration :=
  flat_map (fun ev => match ev with EvSelect d CtxDone => [d] | _ => [] end) t.


(** ** Scenarios *)



(** The cancellation signal has not fired in world [w]. *)
Definition not_cancelled {W : Type} (ctx : Context W) (w : W) : Prop :=
  ctx_Err ctx w = Nil.


(** All three function fields of the [Config] are set. *)
Definition configured {W : Type} (c : Config W)
  (r : OnRetryFunc W) (f : OnFailedFunc W) (d : DelayStrategyFunc W) : Prop :=
  OnRetry c = Some r /\ OnFailed c = Some f /\ DelayStrategy c = Some d.

(** The functions a run calls: those of the [Config], or the defaults that
    [Config.Do] stores in their place. *)
Definition OnRetry_or_default {W : Type} (c : Config W) : OnRetryFunc W :=
  match OnRetry c with Some r => r | None => fun n w => w end.

Definition OnFailed_or_default {W : Type} (c : Config W) : OnFailedFunc W :=
  match OnFailed c with Some f => f | None => fun n err w => w end.

Definition DelayStrategy_or_default {W : Type} (c : Config W)
  : DelayStrategyFunc W :=
  match DelayStrategy c with
  | Some d => d
  | None => pure_strategy (FixedDelay 0)
  end.

(** The [Config] as the three defaulting assignments of [Config.Do] leave it. *)
Definition with_defaults {W : Type} (c : Config W) : Config W :=
  mkConfig (RetryTimes c)
    (Some (OnRetry_or_default c))
    (Some (OnFailed_or_default c))
    (Some (DelayStrategy_or_default c)).

(** What the optional call of [OnRetry] at the head of the loop body leaves:
    its event and its world. *)
Definition retry_events (n : Z) : list event :=
  if 0 <? n then [EvRetry n] else [].

Definition retry_world {W : Type} (r : OnRetryFunc W) (n : Z) (w : W) : W :=
  if 0 <? n then r n w else w.

(** ** Contexts and operations of the tests

    The world of these examples is one flag: the cancellation signal has
    fired. *)

(** [context.Canceled] *)
Definition Canceled : error := Err "context canceled".

(** [var testErr = errors.New("test")] of [retry_test.go] *)
Definition testErr : error := Err "test".

(** [context.Background()]: it never fires. *)
Definition Background : Context bool :=
  mkContext (fun _ => Nil) (fun d fired => (TimerFired, fired)).

(** A context from [context.WithCancel], fired or not as the flag tells. *)
Definition WithCancel : Context bool :=
  mkContext (fun fired : bool => if fired then Canceled else Nil)
            (fun (d : Duration) (fired : bool) =>
               if fired then (CtxDone, true)
               else (TimerFired, false)).

(** A context from [context.WithCancel] whose [cancel] is called by someone
    else while the engine waits. *)
Definition cancel_on_wait : Context bool :=
  mkContext (fun fired : bool => if fired then Canceled else Nil)
            (fun d fired => (CtxDone, true)).

(** [func() error { return testErr }] *)
Definition always_testErr : Operation bool := fun k w => (testErr, w).

(** [SuccessOnMaxCallFunc] of [retry_test.go]: the closure counts its calls
    and returns nil from call number [maxCall] on. *)
Definition SuccessOnMaxCallFunc (maxCall : Z) : Operation bool :=
  fun k w => (if maxCall <=? Z.of_nat k + 1 then Nil else testErr, w).

(** [func() error { return Break(err) }] *)
Definition always_Break (err : error) : Operation bool :=
  fun k w => (Break err, w).

(** ** The attempts of a run, as a relation

    [Attempting b n k w e w' t]: entered with counter [n], after [k]
    invocations of the operation and in world [w], the loop of a [Config]
    with budget [b] and functions [r], [f], [d] returns [e], leaves the
    world [w'] and causes the events [t].  The relation is a reading aid for
    the proofs, not part of the embedding: [loop_Attempting] below shows that
    [loop] runs this way. *)

Section Attempts.

Context {W : Type} (ctx : Context W) (fn : Operation W).
Variables (r : OnRetryFunc W) (f : OnFailedFunc W) (d : DelayStrategyFunc W).

Inductive Attempting (b : Z)
  : Z -> nat -> W -> error -> W -> list event -> Prop :=
| Attempt_success n k w raw w2 :
    fn k (retry_world r n w) = (raw, w2) ->
    fst (unwrap_break raw) = Nil ->
    Attempting b n k w Nil w2 (retry_events n ++ [EvOp k raw])
| Attempt_final n k w raw w2 :
    fn k (retry_world r n w) = (raw, w2) ->
    fst (unwrap_break raw) <> Nil ->
    snd (unwrap_break raw) = true \/ b <= n ->
    Attempting b n k w (fst (unwrap_break raw))
      (f n (fst (unwrap_break raw)) w2)
      (retry_events n ++ [EvOp k raw; EvFailed n (fst (unwrap_break raw))])
| Attempt_cancelled n k w raw w2 dl w4 w5 :
    fn k (retry_world r n w) = (raw, w2) ->
    retryable raw ->
    n < b ->
    d n raw (f n raw w2) = (dl, w4) ->
    ctx_select ctx dl w4 = (CtxDone, w5) ->
    Attempting b n k w (ctx_Err ctx w5) w5
      (retry_events n ++
       [EvOp k raw; EvFailed n raw; EvDelay n raw dl; EvSelect dl CtxDone])
| Attempt_retried n k w raw w2 dl w4 w5 e w' t :
    fn k (retry_world r n w) = (raw, w2) ->
    retryable raw ->
    n < b ->
    d n raw (f n raw w2) = (dl, w4) ->
    ctx_select ctx dl w4 = (TimerFired, w5) ->
    Attempting b (n + 1) (S k) w5 e w' t ->
    Attempting b n k w e w'
      (retry_events n ++
       [EvOp k raw; EvFailed n raw; EvDelay n raw dl; EvSelect dl TimerFired]
       ++ t).

End Attempts.

(** ** More readings of a run *)

(** The durations of the timers the engine waited on, in order. *)
Definition waits (t : list event) : list Duration :=
  flat_map (fun ev => match ev with EvSelect d _ => [d] | _ => [] end) t.

(** The durations the delay strategy returned, in order. *)
Definition delay_results (t : list event) : list Duration :=
  flat_map (fun ev => match ev with EvDelay _ _ d => [d] | _ => [] end) t.

(** The error an attempt is judged by: the result of the operation without
    the mark of [Break]. *)
Definition unwrapped (raw : error) : error := fst (unwrap_break raw).

(** The error carries the mark of [Break]. *)
Definition marked (e : error) : bool :=
  match e with breakError _ => true | _ => false end.

(** The error is not a [Break] of a [Break]. *)
Definition marked_once (e : error) : Prop :=
  match e with breakError inner => marked inner = false | _ => True end.

(** ** Lists of options

    A call of one of the four option builders, and the [Option] it makes. *)
Inductive option_call (W : Type) : Type :=
| CallWithTimes (retryTimes : Z)
| CallWithOnRetryFunc (fn : OnRetryFunc W)
| CallWithOnFailedFunc (fn : OnFailedFunc W)
| CallWithDelayStrategy (delayType : DelayStrategyFunc W).
Arguments CallWithTimes {W} retryTimes.
Arguments CallWithOnRetryFunc {W} fn.
Arguments CallWithOnFailedFunc {W} fn.
Arguments CallWithDelayStrategy {W} delayType.

Definition option_of {W : Type} (c : option_call W) : Option W :=
  match c with
  | CallWithTimes retryTimes => WithTimes retryTimes
  | CallWithOnRetryFunc fn => WithOnRetryFunc fn
  | CallWithOnFailedFunc fn => WithOnFailedFunc fn
  | CallWithDelayStrategy delayType => WithDelayStrategy delayType
  end.

(** The argument of the last call of each builder in a list, or [dflt] when
    the list has no such call. *)
Fixpoint last_WithTimes {W : Type} (cs : list (option_call W)) (dflt : Z) : Z :=
  match cs with
  | [] => dflt
  | CallWithTimes retryTimes :: cs' => last_WithTimes cs' retryTimes
  | _ :: cs' => last_WithTimes cs' dflt
  end.

Fixpoint last_WithOnRetryFunc {W : Type} (cs : list (option_call W))
  (dflt : option (OnRetryFunc W)) : option (OnRetryFunc W) :=
  match cs with
  | [] => dflt
  | CallWithOnRetryFunc fn :: cs' => last_WithOnRetryFunc cs' (Some fn)
  | _ :: cs' => last_WithOnRetryFunc cs' dflt
  end.

Fixpoint last_WithOnFailedFunc {W : Type} (cs : list (option_call W))
  (dflt : option (OnFailedFunc W)) : option (OnFailedFunc W) :=
  match cs with
  | [] => dflt
  | CallWithOnFailedFunc fn :: cs' => last_WithOnFailedFunc cs' (Some fn)
  | _ :: cs' => last_WithOnFailedFunc cs' dflt
  end.

Fixpoint last_WithDelayStrategy {W : Type} (cs : list (option_call W))
  (dflt : option (DelayStrategyFunc W)) : option (DelayStrategyFunc W) :=
  match cs with
  | [] => dflt
  | CallWithDelayStrategy delayType :: cs' =>
      last_WithDelayStrategy cs' (Some delayType)
  | _ :: cs' => last_WithDelayStrategy cs' dflt
  end.

(** ** Arithmetic facts about [wrap64] *)

Lemma wrap64_id (z : Z) : in_int64 z -> wrap64 z = z.
Proof.
  unfold in_int64, int64_min, int64_max, wrap64. intros H.
  rewrite Z.mod_small; lia.
Qed.

Lemma wrap64_range (z : Z) : in_int64 (wrap64 z).
Proof.
  unfold in_int64, int64_min, int64_max, wrap64.
  pose proof (Z.mod_pos_bound (z + 2 ^ 63) (2 ^ 64) ltac:(lia)). lia.
Qed.

Lemma wrap64_mod (z : Z) : wrap64 z mod 2 ^ 64 = z mod 2 ^ 64.
Proof.
  unfold wrap64.
  rewrite Zminus_mod, Z.mod_mod by lia.
  rewrite <- Zminus_mod. f_equal. lia.
Qed.

Lemma wrap64_mul_r (a b : Z) : wrap64 (a * wrap64 b) = wrap64 (a * b).
Proof.
  unfold wrap64 at 1 3.
  f_equal.
  rewrite (Zplus_mod (a * wrap64 b)), (Zplus_mod (a * b)).
  f_equal. f_equal.
  rewrite (Zmult_mod a (wrap64 b)), (Zmult_mod a b), wrap64_mod.
  reflexivity.
Qed.

(** ** The clamp shared by [LinearDelay] and [ExponentialDelay] *)

Lemma clamp_min (p maxDelay : Z) :
  0 <= p ->
  (if (maxDelay <? p) || (p <? 0) then maxDelay else p) = Z.min p maxDelay.
Proof.
  intros Hp.
  destruct (maxDelay <? p) eqn:Hgt; destruct (p <? 0) eqn:Hneg; simpl; lia.
Qed.

Lemma clamp_max (p maxDelay : Z) :
  p < 0 \/ maxDelay < p ->
  (if (maxDelay <? p) || (p <? 0) then maxDelay else p) = maxDelay.
Proof.
  intros Hp.
  destruct (maxDelay <? p) eqn:Hgt; destruct (p <? 0) eqn:Hneg; simpl; lia.
Qed.

(** ** [FixedDelay] *)

Lemma FixedDelay_const (d : Duration) (n : Z) (err : error) :
  FixedDelay d n err = d.
Proof. reflexivity. Qed.

(** ** [LinearDelay] *)

Lemma LinearDelay_product (baseDelay maxDelay n : Z) (err : error) :
  LinearDelay baseDelay maxDelay n err =
  let p := wrap64 (baseDelay * (n + 1)) in
  if (maxDelay <? p) || (p <? 0) then maxDelay else p.
Proof. unfold LinearDelay. rewrite wrap64_mul_r. reflexivity. Qed.

(** C7, as the code has it.  For an attempt index [n >= 0]:
    - with [baseDelay >= 0] and a product [baseDelay * (n+1)] that fits a
      duration, [LinearDelay baseDelay maxDelay] returns
      [min (baseDelay * (n+1)) maxDelay];
    - whenever the product, as the 64-bit value the code computes, is
      negative or exceeds [maxDelay], it returns [maxDelay];
    - in particular a negative [baseDelay] whose product fits a duration
      gives [maxDelay], not the minimum. *)
Theorem LinearDelay_clamped (baseDelay maxDelay n : Z) (err : error) :
  0 <= n ->
  (0 <= baseDelay -> baseDelay * (n + 1) <= int64_max ->
   LinearDelay baseDelay maxDelay n err = Z.min (baseDelay * (n + 1)) maxDelay)
  /\ (wrap64 (baseDelay * (n + 1)) < 0 \/
      maxDelay < wrap64 (baseDelay * (n + 1)) ->
      LinearDelay baseDelay maxDelay n err = maxDelay)
  /\ (baseDelay < 0 -> int64_min <= baseDelay * (n + 1) ->
      LinearDelay baseDelay maxDelay n err = maxDelay).
Proof.
  intros Hn. rewrite LinearDelay_product. cbv zeta. repeat split.
  - intros Hb Hfit.
    rewrite wrap64_id by (unfold in_int64, int64_min; nia).
    apply clamp_min. nia.
  - apply clamp_max.
  - intros Hb Hfit.
    rewrite wrap64_id by (unfold in_int64, int64_max; nia).
    apply clamp_max. left. nia.
Qed.

(** The three parts at work: one second of base delay at the third attempt
    under a cap of ten seconds, then under a cap of two seconds, and a
    negative base delay. *)
Lemma LinearDelay_clamped_witness :
  LinearDelay 1000000000 10000000000 2 (Err "test") =
    Z.min (1000000000 * (2 + 1)) 10000000000
  /\ LinearDelay 1000000000 2000000000 2 (Err "test") = 2000000000
  /\ LinearDelay (-1) 10 0 (Err "test") = 10.
Proof.
  split; [ | split].
  - apply (proj1 (LinearDelay_clamped 1000000000 10000000000 2 (Err "test")
                      ltac:(lia))); unfold int64_max; lia.
  - apply (proj1 (proj2 (LinearDelay_clamped 1000000000 2000000000 2
                           (Err "test") ltac:(lia)))).
    right. vm_compute. reflexivity.
  - apply (proj2 (proj2 (LinearDelay_clamped (-1) 10 0 (Err "test")
                           ltac:(lia)))); unfold int64_min; lia.
Defined.

(** C7 as stated fails.  A negative base delay is replaced by the cap, not by
    the smaller product: [LinearDelay (-1) 10] at [n = 0] returns [10],
    while [min (-1 * 1) 10 = -1].  A product that wraps around to a value
    that is not negative is kept: [LinearDelay (2^62) int64_max] at [n = 3]
    returns [0], while the minimum is [int64_max]. *)
Lemma LinearDelay_not_min :
  (LinearDelay (-1) 10 0 Nil = 10 /\
   LinearDelay (-1) 10 0 Nil <> Z.min (-1 * (0 + 1)) 10)
  /\ (LinearDelay (2 ^ 62) int64_max 3 Nil = 0 /\
      LinearDelay (2 ^ 62) int64_max 3 Nil <> Z.min (2 ^ 62 * (3 + 1)) int64_max).
Proof. vm_compute. repeat split; discriminate. Qed.

(** ** [ExponentialDelay] *)

Lemma ExponentialDelay_product (baseDelay maxDelay n : Z) (err : error) :
  0 <= n ->
  ExponentialDelay baseDelay maxDelay n err =
  let p := wrap64 (baseDelay * 2 ^ n) in
  Returns (if (maxDelay <? p) || (p <? 0) then maxDelay else p).
Proof.
  intros Hn. unfold ExponentialDelay.
  replace (n <? 0) with false by (symmetry; apply Z.ltb_ge; exact Hn).
  rewrite Z.shiftl_mul_pow2 by exact Hn. reflexivity.
Qed.

(** C6, as the code has it.  For a shift count [n >= 0]:
    - with [baseDelay >= 0] and a product [baseDelay * 2^n] that fits a
      duration, [ExponentialDelay baseDelay maxDelay] returns
      [min (baseDelay * 2^n) maxDelay];
    - whenever the shifted value, as the 64-bit value the code computes, is
      negative or exceeds [maxDelay], it returns [maxDelay];
    - in particular a negative [baseDelay] whose product fits a duration
      gives [maxDelay], not the minimum. *)
Theorem ExponentialDelay_clamped (baseDelay maxDelay n : Z) (err : error) :
  0 <= n ->
  (0 <= baseDelay -> baseDelay * 2 ^ n <= int64_max ->
   ExponentialDelay baseDelay maxDelay n err =
   Returns (Z.min (baseDelay * 2 ^ n) maxDelay))
  /\ (wrap64 (baseDelay * 2 ^ n) < 0 \/
      maxDelay < wrap64 (baseDelay * 2 ^ n) ->
      ExponentialDelay baseDelay maxDelay n err = Returns maxDelay)
  /\ (baseDelay < 0 -> int64_min <= baseDelay * 2 ^ n ->
      ExponentialDelay baseDelay maxDelay n err = Returns maxDelay).
Proof.
  intros Hn. rewrite ExponentialDelay_product by exact Hn. cbv zeta.
  assert (Hpow : 0 < 2 ^ n) by (apply Z.pow_pos_nonneg; lia).
  repeat split.
  - intros Hb Hfit.
    rewrite wrap64_id by (unfold in_int64, int64_min; nia).
    f_equal. apply clamp_min. nia.
  - intros Hp. f_equal. apply clamp_max. exact Hp.
  - intros Hb Hfit.
    rewrite wrap64_id by (unfold in_int64, int64_max; nia).
    f_equal. apply clamp_max. left. nia.
Qed.

(** The three parts at work: one second of base delay at the second attempt
    under a cap of three seconds, at the third attempt under the same cap,
    and a negative base delay. *)
Lemma ExponentialDelay_clamped_witness :
  ExponentialDelay 1000000000 3000000000 1 (Err "test") =
    Returns (Z.min (1000000000 * 2 ^ 1) 3000000000)
  /\ ExponentialDelay 1000000000 3000000000 2 (Err "test") =
       Returns 3000000000
  /\ ExponentialDelay (-1) 10 0 (Err "test") = Returns 10.
Proof.
  split; [ | split].
  - apply (proj1 (ExponentialDelay_clamped 1000000000 3000000000 1
                    (Err "test") ltac:(lia))); unfold int64_max; lia.
  - apply (proj1 (proj2 (ExponentialDelay_clamped 1000000000 3000000000 2
                           (Err "test") ltac:(lia)))).
    right. vm_compute. reflexivity.
  - apply (proj2 (proj2 (ExponentialDelay_clamped (-1) 10 0 (Err "test")
                           ltac:(lia)))); unfold int64_min; lia.
Defined.

(** C6 as stated fails.  A negative base delay is replaced by the cap, not by
    the smaller product: [ExponentialDelay (-1) 10] at [n = 0] returns [10],
    while [min (-1 * 2^0) 10 = -1].  A shift that loses every set bit is
    kept: [ExponentialDelay 1 10] at [n = 64] returns [0], while
    [min (1 * 2^64) 10 = 10]. *)
Lemma ExponentialDelay_not_min :
  (ExponentialDelay (-1) 10 0 Nil = Returns 10 /\
   ExponentialDelay (-1) 10 0 Nil <> Returns (Z.min (-1 * 2 ^ 0) 10))
  /\ (ExponentialDelay 1 10 64 Nil = Returns 0 /\
      ExponentialDelay 1 10 64 Nil <> Returns (Z.min (1 * 2 ^ 64) 10)).
Proof. vm_compute. repeat split; discriminate. Qed.

(** One second doubled 55 times has lost all its bits: the delay is zero
    although the cap is a minute. *)
Lemma ExponentialDelay_second_55 :
  ExponentialDelay 1000000000 60000000000 55 (Err "test") = Returns 0.
Proof. vm_compute. reflexivity. Qed.

(** ** [RandomDelay] *)

Lemma RandomDelay_bounds_normal (minDelay maxDelay : Duration) :
  let '(lo, hi) := RandomDelay_bounds minDelay maxDelay in
  0 <= lo /\ lo <= hi /\ lo = Z.max 0 minDelay /\ hi = Z.max lo maxDelay.
Proof.
  unfold RandomDelay_bounds.
  destruct (minDelay <? 0) eqn:Hmin;
    [ destruct (maxDelay <? 0) eqn:Hmax
    | destruct (maxDelay <? minDelay) eqn:Hmax ]; lia.
Qed.

(** X7.  Away from the one width that overflows, every call returns a
    duration between the normalised bounds, and exactly the bound when they
    agree. *)
Lemma RandomDelay_in_range (minDelay maxDelay raw n : Z) (err : error) :
  in_int64 minDelay -> in_int64 maxDelay ->
  snd (RandomDelay_bounds minDelay maxDelay)
  - fst (RandomDelay_bounds minDelay maxDelay) < int64_max ->
  exists d,
    RandomDelay minDelay maxDelay raw n err = Returns d /\
    fst (RandomDelay_bounds minDelay maxDelay) <= d
      <= snd (RandomDelay_bounds minDelay maxDelay) /\
    (fst (RandomDelay_bounds minDelay maxDelay)
     = snd (RandomDelay_bounds minDelay maxDelay) ->
     d = fst (RandomDelay_bounds minDelay maxDelay)).
Proof.
  intros Hmin Hmax. unfold RandomDelay.
  pose proof (RandomDelay_bounds_normal minDelay maxDelay) as Hn.
  destruct (RandomDelay_bounds minDelay maxDelay) as [lo hi]. simpl.
  destruct Hn as (Hlo & Hle & Elo & Ehi). intros Hw.
  assert (Hhi : hi <= int64_max)
    by (unfold in_int64 in *; lia).
  destruct (lo <? hi) eqn:Hlt.
  - apply Z.ltb_lt in Hlt.
    rewrite (wrap64_id (hi - lo))
      by (unfold in_int64, int64_min, int64_max in *; lia).
    rewrite (wrap64_id (hi - lo + 1))
      by (unfold in_int64, int64_min, int64_max in *; lia).
    unfold Int63n.
    replace (hi - lo + 1 <=? 0) with false by (symmetry; apply Z.leb_gt; lia).
    pose proof (Z.mod_pos_bound raw (hi - lo + 1) ltac:(lia)) as Hr.
    rewrite wrap64_id
      by (unfold in_int64, int64_min, int64_max in *; lia).
    eexists. split; [reflexivity | lia].
  - apply Z.ltb_ge in Hlt. exists lo. split; [reflexivity | lia].
Qed.

(** C8 fails on the code for the widest interval.  [RandomDelay 0 int64_max]
    computes the width [int64_max - 0 + 1], which wraps around to
    [int64_min], and [rand.Int63n] panics on it: no call returns. *)
Theorem RandomDelay_widest_panics (raw n : Z) (err : error) :
  RandomDelay 0 int64_max raw n err = Panics "invalid argument to Int63n".
Proof. reflexivity. Qed.

(** ** Errors *)

Lemma error_eq_nil (e : error) : {e = Nil} + {e <> Nil}.
Proof. destruct e; [left; reflexivity | right; discriminate ..]. Qed.

(** ** One pass through the loop body *)

Section BodyFacts.

Context {W : Type} (ctx : Context W) (fn : Operation W).
Variables (r : OnRetryFunc W) (f : OnFailedFunc W) (d : DelayStrategyFunc W).

Ltac run_body :=
  unfold body, bind, call_OnRetry, call_fn, call_OnFailed, call_DelayStrategy,
    select_After_or_Done, call_ctx_Err, get_config, ret, set_world,
    retry_events, retry_world in *;
  simpl in *.

(** The operation succeeds, plainly or through [Break(nil)]. *)
Lemma body_success (n : Z) (s : state W) (raw : error) (w2 : W) :
  configured (st_config s) r f d ->
  fn (st_calls s) (retry_world r n (st_world s)) = (raw, w2) ->
  fst (unwrap_break raw) = Nil ->
  body ctx fn n s =
  Done (Return Nil) (mkState (st_config s) w2 (S (st_calls s)))
       (retry_events n ++ [EvOp (st_calls s) raw]).
Proof.
  intros (Hr & Hf & Hd) Hfn Hnil. revert Hfn. run_body.
  destruct (0 <? n); intros Hfn; rewrite ?Hr; simpl; rewrite Hfn;
    destruct (unwrap_break raw) as [err brk]; simpl in Hnil; subst err;
    reflexivity.
Qed.

(** The operation fails and the attempt is the last: the error is marked by
    [Break], or the budget is used up. *)
Lemma body_final (n : Z) (s : state W) (raw : error) (w2 : W) :
  configured (st_config s) r f d ->
  fn (st_calls s) (retry_world r n (st_world s)) = (raw, w2) ->
  fst (unwrap_break raw) <> Nil ->
  snd (unwrap_break raw) = true \/ RetryTimes (st_config s) <= n ->
  body ctx fn n s =
  Done (Return (fst (unwrap_break raw)))
       (mkState (st_config s) (f n (fst (unwrap_break raw)) w2)
                (S (st_calls s)))
       (retry_events n ++
        [EvOp (st_calls s) raw; EvFailed n (fst (unwrap_break raw))]).
Proof.
  intros (Hr & Hf & Hd) Hfn Hnn Hlast. revert Hfn. run_body.
  assert (Hstop : (if RetryTimes (st_config s) <=? n then true
                   else snd (unwrap_break raw)) = true).
  { destruct Hlast as [Hb | Hb].
    - rewrite Hb. destruct (_ <=? _); reflexivity.
    - apply Z.leb_le in Hb. rewrite Hb. reflexivity. }
  destruct (0 <? n); intros Hfn; rewrite ?Hr; simpl; rewrite Hfn;
    destruct (unwrap_break raw) as [err brk]; simpl in *;
    (destruct err; [congruence | | ]); simpl; rewrite Hf; simpl;
    rewrite Hstop; reflexivity.
Qed.

(** The operation fails retryably within the budget: the engine asks for
    the delay and waits. *)
Lemma body_wait (n : Z) (s : state W) (raw : error) (w2 w4 w5 : W)
  (dl : Duration) (c : select_case) :
  configured (st_config s) r f d ->
  fn (st_calls s) (retry_world r n (st_world s)) = (raw, w2) ->
  retryable raw ->
  n < RetryTimes (st_config s) ->
  d n raw (f n raw w2) = (dl, w4) ->
  ctx_select ctx dl w4 = (c, w5) ->
  body ctx fn n s =
  Done (match c with
        | TimerFired => Next (wrap64 (n + 1))
        | CtxDone => Return (ctx_Err ctx w5)
        end)
       (mkState (st_config s) w5 (S (st_calls s)))
       (retry_events n ++
        [EvOp (st_calls s) raw; EvFailed n raw; EvDelay n raw dl;
         EvSelect dl c]).
Proof.
  intros (Hr & Hf & Hd) Hfn Hraw Hlt Hdl Hsel. revert Hfn. run_body.
  apply Z.leb_gt in Hlt.
  destruct raw as [ | msg | inner]; try contradiction.
  destruct (0 <? n); intros Hfn; rewrite ?Hr; simpl; rewrite Hfn; simpl;
    rewrite Hf; simpl; rewrite Hlt; simpl; rewrite Hd, Hdl; simpl;
    rewrite Hsel; destruct c; reflexivity.
Qed.

End BodyFacts.

(** ** Lists of events *)

Lemma op_results_app (t1 t2 : list event) :
  op_results (t1 ++ t2) = op_results t1 ++ op_results t2.
Proof. apply flat_map_app. Qed.

Lemma retry_calls_app (t1 t2 : list event) :
  retry_calls (t1 ++ t2) = retry_calls t1 ++ retry_calls t2.
Proof. apply flat_map_app. Qed.

Lemma failed_calls_app (t1 t2 : list event) :
  failed_calls (t1 ++ t2) = failed_calls t1 ++ failed_calls t2.
Proof. apply flat_map_app. Qed.

Lemma delay_calls_app (t1 t2 : list event) :
  delay_calls (t1 ++ t2) = delay_calls t1 ++ delay_calls t2.
Proof. apply flat_map_app. Qed.

Lemma cancellations_app (t1 t2 : list event) :
  cancellations (t1 ++ t2) = cancellations t1 ++ cancellations t2.
Proof. apply flat_map_app. Qed.

Lemma retry_events_only (n : Z) (ev : event) :
  In ev (retry_events n) -> ev = EvRetry n.
Proof.
  unfold retry_events. destruct (0 <? n); simpl; intros H;
    [destruct H as [H | H]; [symmetry; exact H | contradiction]
    | contradiction].
Qed.

Lemma retry_events_ops (n : Z) : op_results (retry_events n) = [].
Proof. unfold retry_events. destruct (0 <? n); reflexivity. Qed.

Lemma retry_events_failed (n : Z) : failed_calls (retry_events n) = [].
Proof. unfold retry_events. destruct (0 <? n); reflexivity. Qed.

Lemma retry_events_delays (n : Z) : delay_calls (retry_events n) = [].
Proof. unfold retry_events. destruct (0 <? n); reflexivity. Qed.

Lemma retry_events_cancellations (n : Z) :
  cancellations (retry_events n) = [].
Proof. unfold retry_events. destruct (0 <? n); reflexivity. Qed.

Lemma retry_events_calls (n : Z) :
  retry_calls (retry_events n) = if 0 <? n then [n] else [].
Proof. unfold retry_events. destruct (0 <? n); reflexivity. Qed.

Create Rewrite HintDb trace.
#[local] Hint Rewrite op_results_app retry_calls_app failed_calls_app delay_calls_app
  cancellations_app retry_events_ops retry_events_failed retry_events_delays
  retry_events_cancellations retry_events_calls : trace.

(** ** The loop *)

Section LoopFacts.

Context {W : Type} (ctx : Context W) (fn : Operation W).
Variables (r : OnRetryFunc W) (f : OnFailedFunc W) (d : DelayStrategyFunc W).

Lemma loop_S (fuel : nat) (n : Z) (s : state W) :
  loop ctx fn (S fuel) n s =
  match body ctx fn n s with
  | Done (Return e) s1 t1 => Done e s1 t1
  | Done (Next n') s1 t1 =>
      match loop ctx fn fuel n' s1 with
      | Done e s2 t2 => Done e s2 (t1 ++ t2)
      | Panic msg => Panic msg
      | OutOfFuel => OutOfFuel
      end
  | Panic msg => Panic msg
  | OutOfFuel => OutOfFuel
  end.
Proof.
  simpl. unfold bind.
  destruct (body ctx fn n s) as [c s1 t1 | msg | ]; try reflexivity.
  destruct c as [e | n']; [ | reflexivity].
  unfold ret. rewrite app_nil_r. reflexivity.
Qed.

(** An error that is neither nil nor marked by [Break] is retryable. *)
Lemma unwrap_break_plain (raw : error) :
  fst (unwrap_break raw) <> Nil -> snd (unwrap_break raw) = false ->
  retryable raw.
Proof. destruct raw; simpl; intros; try congruence; exact I. Qed.


(** The loop returns once the fuel exceeds the budget left, never touches
    the [Config], and runs as [Attempting] tells. *)
Lemma loop_Attempting (fuel : nat) :
  forall (n : Z) (s : state W),
    configured (st_config s) r f d ->
    RetryTimes (st_config s) <= int64_max ->
    0 <= n ->
    (Z.to_nat (RetryTimes (st_config s) - n) < fuel)%nat ->
    exists e w' t,
      loop ctx fn fuel n s =
      Done e (mkState (st_config s) w'
                      (List.length (op_results t) + st_calls s)) t /\
      Attempting ctx fn r f d (RetryTimes (st_config s)) n (st_calls s)
        (st_world s) e w' t.
Proof.
  induction fuel as [ | fuel IH]; intros n s Hc Hb Hn Hfuel; [lia | ].
  rewrite loop_S.
  destruct (fn (st_calls s) (retry_world r n (st_world s))) as [raw w2] eqn:Hfn.
  destruct (error_eq_nil (fst (unwrap_break raw))) as [Hnil | Hnn].
  { rewrite (body_success ctx fn r f d n s raw w2 Hc Hfn Hnil).
    exists Nil, w2, (retry_events n ++ [EvOp (st_calls s) raw]).
    split; [ | apply Attempt_success with (w2 := w2); assumption].
    autorewrite with trace. reflexivity. }
  destruct (snd (unwrap_break raw)) eqn:Hbrk.
  { rewrite (body_final ctx fn r f d n s raw w2 Hc Hfn Hnn (or_introl Hbrk)).
    exists (fst (unwrap_break raw)), (f n (fst (unwrap_break raw)) w2),
      (retry_events n ++
       [EvOp (st_calls s) raw; EvFailed n (fst (unwrap_break raw))]).
    split; [ | apply Attempt_final with (w2 := w2); auto].
    autorewrite with trace. reflexivity. }
  destruct (Z_le_gt_dec (RetryTimes (st_config s)) n) as [Hle | Hgt].
  { rewrite (body_final ctx fn r f d n s raw w2 Hc Hfn Hnn (or_intror Hle)).
    exists (fst (unwrap_break raw)), (f n (fst (unwrap_break raw)) w2),
      (retry_events n ++
       [EvOp (st_calls s) raw; EvFailed n (fst (unwrap_break raw))]).
    split; [ | apply Attempt_final with (w2 := w2); auto].
    autorewrite with trace. reflexivity. }
  pose proof (unwrap_break_plain raw Hnn Hbrk) as Hraw.
  destruct (d n raw (f n raw w2)) as [dl w4] eqn:Hdl.
  destruct (ctx_select ctx dl w4) as [c w5] eqn:Hsel.
  rewrite (body_wait ctx fn r f d n s raw w2 w4 w5 dl c Hc Hfn Hraw
             ltac:(lia) Hdl Hsel).
  destruct c.
  - rewrite wrap64_id by (unfold in_int64, int64_min; lia).
    destruct (IH (n + 1) (mkState (st_config s) w5 (S (st_calls s))))
      as (e & w' & t & Hloop & Hrun); simpl; try assumption; try lia.
    rewrite Hloop. simpl in Hrun. simpl st_calls.
    exists e, w',
      (retry_events n ++
       [EvOp (st_calls s) raw; EvFailed n raw; EvDelay n raw dl;
        EvSelect dl TimerFired] ++ t).
    split.
    + rewrite <- app_assoc. autorewrite with trace. simpl.
      rewrite Nat.add_succ_r. reflexivity.
    + eapply Attempt_retried; eauto. lia.
  - exists (ctx_Err ctx w5), w5,
      (retry_events n ++
       [EvOp (st_calls s) raw; EvFailed n raw; EvDelay n raw dl;
        EvSelect dl CtxDone]).
    split; [ | eapply Attempt_cancelled; eauto; lia].
    autorewrite with trace. reflexivity.
Qed.

End LoopFacts.

(** ** What every run of the loop does *)

Section AttemptingFacts.

Context {W : Type} (ctx : Context W) (fn : Operation W).
Variables (r : OnRetryFunc W) (f : OnFailedFunc W) (d : DelayStrategyFunc W).
Variable b : Z.

(** At least one invocation of the operation. *)
Lemma Attempting_ops n k w e w' t :
  Attempting ctx fn r f d b n k w e w' t -> op_results t <> [].
Proof.
  intros H. destruct H; autorewrite with trace; simpl; discriminate.
Qed.

(** A lost wait is the last event, and the result is the signal's error. *)
Lemma Attempting_cancellation n k w e w' t :
  Attempting ctx fn r f d b n k w e w' t ->
  forall dl, In (EvSelect dl CtxDone) t ->
    e = ctx_Err ctx w' /\ exists t0, t = t0 ++ [EvSelect dl CtxDone].
Proof.
  induction 1 as [n k w raw w2 Hfn Hnil
                 | n k w raw w2 Hfn Hnn Hlast
                 | n k w raw w2 dl0 w4 w5 Hfn Hraw Hlt Hdl Hsel
                 | n k w raw w2 dl0 w4 w5 e w' t Hfn Hraw Hlt Hdl Hsel Hrun IH];
    intros dl Hin; apply in_app_or in Hin; destruct Hin as [Hin | Hin];
    try (apply retry_events_only in Hin; discriminate).
  - simpl in Hin. intuition discriminate.
  - simpl in Hin. intuition discriminate.
  - simpl in Hin.
    destruct Hin as [Hin | [Hin | [Hin | [Hin | []]]]]; try discriminate.
    injection Hin as <-. split; [reflexivity | ].
    exists (retry_events n ++ [EvOp k raw; EvFailed n raw; EvDelay n raw dl0]).
    rewrite <- app_assoc. reflexivity.
  - apply in_app_or in Hin. destruct Hin as [Hin | Hin].
    + simpl in Hin.
      destruct Hin as [Hin | [Hin | [Hin | [Hin | []]]]]; discriminate.
    + destruct (IH dl Hin) as (He & t0 & Ht). split; [exact He | ].
      exists (retry_events n ++
              [EvOp k raw; EvFailed n raw; EvDelay n raw dl0;
               EvSelect dl0 TimerFired] ++ t0).
      rewrite Ht, <- !app_assoc. reflexivity.
Qed.


End AttemptingFacts.

Section ScenarioFacts.

Context {W : Type} (ctx : Context W) (fn : Operation W).
Variables (r : OnRetryFunc W) (f : OnFailedFunc W) (d : DelayStrategyFunc W).
Variable b : Z.





(** With the budget used up the attempt is the last one. *)
Lemma Attempting_last_attempt n k w e w' t :
  Attempting ctx fn r f d b n k w e w' t ->
  b <= n ->
  e = fst (unwrap_break (fst (fn k (retry_world r n w)))) /\
  w' = (if is_nil e then snd (fn k (retry_world r n w))
        else f n e (snd (fn k (retry_world r n w)))) /\
  t = retry_events n ++
      EvOp k (fst (fn k (retry_world r n w)))
      :: (if is_nil e then [] else [EvFailed n e]).
Proof.
  intros H Hb.
  destruct H as [n k w raw w2 Hfn Hnil
                | n k w raw w2 Hfn Hnn Hlast
                | n k w raw w2 dl0 w4 w5 Hfn Hraw Hlt Hdl Hsel
                | n k w raw w2 dl0 w4 w5 e w' t Hfn Hraw Hlt Hdl Hsel Hrun];
    try lia; rewrite Hfn; simpl.
  - rewrite Hnil. repeat split; reflexivity.
  - split; [reflexivity | ].
    destruct (fst (unwrap_break raw)); [congruence | split; reflexivity ..].
Qed.





End ScenarioFacts.

(** ** [Config.Do] *)

Section DoFacts.

Context {W : Type} (ctx : Context W) (fn : Operation W).

Lemma with_defaults_configured (c : Config W) :
  configured (with_defaults c) (OnRetry_or_default c) (OnFailed_or_default c)
    (DelayStrategy_or_default c).
Proof. repeat split. Qed.

Lemma with_defaults_idempotent (c : Config W) :
  with_defaults (with_defaults c) = with_defaults c.
Proof. reflexivity. Qed.

Lemma with_defaults_set (c : Config W) r f d :
  configured c r f d -> with_defaults c = c.
Proof.
  destruct c as [b o1 o2 o3]. unfold configured. simpl.
  intros (-> & -> & ->). reflexivity.
Qed.

Lemma run_eta (x : run W error) :
  match x with
  | Done e s t => Done e s t
  | Panic msg => Panic msg
  | OutOfFuel => OutOfFuel
  end = x.
Proof. destruct x; reflexivity. Qed.

(** The signal has fired: [Do] returns its error at once. *)
Lemma run_Do_cancelled (fuel : nat) (config : Config W) (w : W) :
  ctx_Err ctx w <> Nil ->
  run_Do ctx fn fuel config w = Done (ctx_Err ctx w) (mkState config w O) [].
Proof.
  intros Hfired. unfold run_Do, Config_Do, bind, call_ctx_Err, ret. simpl.
  destruct (ctx_Err ctx w); [congruence | reflexivity ..].
Qed.

(** The signal has not fired: [Do] stores the defaults and enters the loop. *)
Lemma run_Do_started (fuel : nat) (config : Config W) (w : W) :
  not_cancelled ctx w ->
  run_Do ctx fn fuel config w =
  loop ctx fn fuel 0 (mkState (with_defaults config) w O).
Proof.
  unfold not_cancelled, run_Do, Config_Do, bind, call_ctx_Err. simpl.
  intros ->. simpl.
  unfold default_OnRetry, default_OnFailed, default_DelayStrategy, bind,
    get_config, set_config, ret. simpl.
  destruct config as [b [r | ] [f | ] [d | ]]; simpl;
    rewrite !run_eta; reflexivity.
Qed.

(** A run that starts returns, leaves the [Config] with its defaults and
    goes through the attempts. *)
Lemma run_Do_Attempting (fuel : nat) (config : Config W) (w : W) :
  not_cancelled ctx w ->
  RetryTimes config <= int64_max ->
  (Z.to_nat (RetryTimes config) < fuel)%nat ->
  exists e w' t,
    run_Do ctx fn fuel config w =
    Done e (mkState (with_defaults config) w' (List.length (op_results t))) t /\
    Attempting ctx fn (OnRetry_or_default config) (OnFailed_or_default config)
      (DelayStrategy_or_default config) (RetryTimes config) 0 O w e w' t.
Proof.
  intros Hstart Hb Hfuel. rewrite (run_Do_started fuel config w Hstart).
  assert (Hfuel' : (Z.to_nat (RetryTimes config - 0) < fuel)%nat)
    by (rewrite Z.sub_0_r; exact Hfuel).
  destruct (loop_Attempting ctx fn _ _ _ fuel 0
              (mkState (with_defaults config) w O)
              (with_defaults_configured config) Hb (Z.le_refl 0) Hfuel')
    as (e & w' & t & Hloop & Hrun).
  simpl in Hloop, Hrun. rewrite Nat.add_0_r in Hloop.
  exists e, w', t. split; assumption.
Qed.

Lemma ctx_Err_dec (w : W) : {not_cancelled ctx w} + {ctx_Err ctx w <> Nil}.
Proof. unfold not_cancelled. apply error_eq_nil. Qed.

End DoFacts.

(** ** The claims about [Config.Do] *)

(** C5.  If the cancellation signal has already fired when [Do] starts, [Do]
    returns the signal's own error, and nothing else happens: the operation
    is not invoked, no observer and no delay strategy is called, the world
    and the [Config] are as they were. *)
Theorem Do_signal_already_fired {W : Type} (ctx : Context W)
  (fn : Operation W) (fuel : nat) (config : Config W) (w : W) :
  ctx_Err ctx w <> Nil ->
  run_Do ctx fn fuel config w = Done (ctx_Err ctx w) (mkState config w O) [].
Proof.
  intros Hfired.
  unfold run_Do, Config_Do, bind, call_ctx_Err, ret. cbn [st_world].
  destruct (ctx_Err ctx w) as [ | msg | inner] eqn:Herr.
  - contradiction Hfired. reflexivity.
  - reflexivity.
  - reflexivity.
Qed.

(** The test "canceled context". *)
Lemma Do_signal_already_fired_witness :
  ctx_Err WithCancel true <> Nil /\
  run_Do WithCancel (SuccessOnMaxCallFunc 0) 6 (NewConfig [WithTimes 5])
    true
  = Done Canceled (mkState (NewConfig [WithTimes 5]) true O) [].
Proof.
  split; [discriminate | ].
  apply (Do_signal_already_fired WithCancel (SuccessOnMaxCallFunc 0) 6
           (NewConfig [WithTimes 5]) true).
  discriminate.
Defined.

(** C4.  [Do] returns, and if the cancellation signal wins a wait, that wait
    is the last event of the run, so the operation is not invoked again, and
    the result is the signal's error, whatever the operation returned. *)
Theorem Do_cancelled_while_waiting {W : Type} (ctx : Context W)
  (fn : Operation W) (fuel : nat) (config : Config W) (w : W) :
  RetryTimes config <= int64_max ->
  (Z.to_nat (RetryTimes config) < fuel)%nat ->
  exists e s t,
    run_Do ctx fn fuel config w = Done e s t /\
    forall dl, In (EvSelect dl CtxDone) t ->
      e = ctx_Err ctx (st_world s) /\ exists t0, t = t0 ++ [EvSelect dl CtxDone].
Proof.
  intros Hb Hfuel. destruct (ctx_Err_dec ctx w) as [Hstart | Hfired].
  - destruct (run_Do_Attempting ctx fn fuel config w Hstart Hb Hfuel)
      as (e & w' & t & Hrun & Hatt).
    do 3 eexists. split; [exact Hrun | ].
    intros dl Hin. simpl.
    exact (Attempting_cancellation _ _ _ _ _ _ _ _ _ _ _ _ Hatt dl Hin).
  - rewrite (run_Do_cancelled ctx fn fuel config w Hfired).
    do 3 eexists. split; [reflexivity | ]. intros dl [].
Qed.

(** One retry allowed, the operation fails, the signal fires during the
    first wait: the result is [Canceled], after a single invocation. *)
Lemma Do_cancelled_while_waiting_witness :
  exists e s t,
    run_Do cancel_on_wait always_testErr 2 (NewConfig [WithTimes 1]) false
    = Done e s t /\
    In (EvSelect 0 CtxDone) t /\
    e = Canceled /\ op_results t = [testErr] /\
    exists t0, t = t0 ++ [EvSelect 0 CtxDone].
Proof.
  destruct (Do_cancelled_while_waiting cancel_on_wait always_testErr 2
              (NewConfig [WithTimes 1]) false)
    as (e & s & t & Hrun & Hlast).
  - vm_compute. discriminate.
  - vm_compute. lia.
  - exists e, s, t. split; [exact Hrun | ].
    vm_compute in Hrun. injection Hrun as He Hs Ht.
    assert (Hin : In (EvSelect 0 CtxDone) t)
      by (rewrite <- Ht; simpl; auto).
    split; [exact Hin | ].
    destruct (Hlast 0 Hin) as (Hres & Hend).
    split; [rewrite Hres, <- Hs; reflexivity | ].
    split; [rewrite <- Ht; reflexivity | exact Hend].
Defined.











(** C10, as the code has it.  For a negative [RetryTimes], [Do] returns and
    behaves as with budget 0: same result, same events, same world.  When
    the cancellation signal has not fired before [Do] starts, the operation
    is invoked exactly once, [OnRetry] and the delay strategy are not called,
    and the result is the error of that attempt, unwrapped if it was marked
    by [Break]. *)
Theorem Do_negative_budget {W : Type} (ctx : Context W) (fn : Operation W)
  (fuel : nat) (config : Config W) (b : Z) (w : W) :
  b < 0 ->
  (0 < fuel)%nat ->
  exists e s s0 t,
    run_Do ctx fn fuel (WithTimes b config) w = Done e s t /\
    run_Do ctx fn fuel (WithTimes 0 config) w = Done e s0 t /\
    st_world s = st_world s0 /\
    st_calls s = st_calls s0 /\
    st_config s = WithTimes b (st_config s0) /\
    (not_cancelled ctx w ->
     op_results t = [fst (fn O w)] /\
     retry_calls t = [] /\
     delay_calls t = [] /\
     e = fst (unwrap_break (fst (fn O w)))).
Proof.
  intros Hb Hfuel. destruct (ctx_Err_dec ctx w) as [Hstart | Hfired].
  - destruct (run_Do_Attempting ctx fn fuel (WithTimes b config) w Hstart)
      as (e & w' & t & Hrun & Hatt);
      [simpl; unfold int64_max; lia | simpl; lia | ].
    destruct (run_Do_Attempting ctx fn fuel (WithTimes 0 config) w Hstart)
      as (e0 & w0' & t0 & Hrun0 & Hatt0);
      [simpl; unfold int64_max; lia | simpl; lia | ].
    apply Attempting_last_attempt in Hatt; [ | simpl; lia].
    apply Attempting_last_attempt in Hatt0; [ | simpl; lia].
    change (retry_world (OnRetry_or_default (WithTimes b config)) 0 w)
      with w in Hatt.
    change (retry_world (OnRetry_or_default (WithTimes 0 config)) 0 w)
      with w in Hatt0.
    change (OnFailed_or_default (WithTimes b config))
      with (OnFailed_or_default config) in Hatt.
    change (OnFailed_or_default (WithTimes 0 config))
      with (OnFailed_or_default config) in Hatt0.
    destruct Hatt as (He & Hw & Ht). destruct Hatt0 as (He0 & Hw0 & Ht0).
    rewrite <- He in He0. subst e0.
    rewrite <- Hw in Hw0. subst w0'.
    rewrite <- Ht in Ht0. subst t0.
    rewrite Hrun, Hrun0. do 4 eexists.
    split; [reflexivity | ]. split; [reflexivity | ].
    split; [reflexivity | ]. split; [reflexivity | ].
    split; [reflexivity | ].
    intros _. rewrite Ht. simpl.
    destruct (is_nil e); simpl; repeat split; exact He.
  - rewrite !(run_Do_cancelled ctx fn fuel _ w Hfired).
    do 4 eexists.
    split; [reflexivity | ]. split; [reflexivity | ].
    split; [reflexivity | ]. split; [reflexivity | ].
    split; [reflexivity | ].
    intros Hstart. unfold not_cancelled in Hstart. congruence.
Qed.

(** The failing operation of the tests under [WithTimes(-3)]. *)
Lemma Do_negative_budget_witness :
  exists e s s0 t,
    run_Do Background always_testErr 1 (WithTimes (-3) (NewConfig [])) false
    = Done e s t /\
    run_Do Background always_testErr 1 (WithTimes 0 (NewConfig [])) false
    = Done e s0 t /\
    st_world s = st_world s0 /\
    st_calls s = st_calls s0 /\
    st_config s = WithTimes (-3) (st_config s0) /\
    (not_cancelled Background false ->
     op_results t = [testErr] /\
     retry_calls t = [] /\
     delay_calls t = [] /\
     e = testErr).
Proof.
  apply (Do_negative_budget Background always_testErr 1 (NewConfig []) (-3)
           false); lia.
Defined.

(** C10 as stated fails when the signal has fired before [Do] starts: with
    [WithTimes(-1)] and a cancelled context the operation is not invoked at
    all, and the result is [Canceled], not the error of an attempt. *)
Lemma Do_negative_budget_cancelled :
  run_Do WithCancel always_testErr 1 (NewConfig [WithTimes (-1)]) true
  = Done Canceled (mkState (NewConfig [WithTimes (-1)]) true O) [] /\
  List.length
    (op_results
       (trace_of (run_Do WithCancel always_testErr 1
                    (NewConfig [WithTimes (-1)]) true)))
  <> 1%nat /\
  result_of (run_Do WithCancel always_testErr 1
               (NewConfig [WithTimes (-1)]) true)
  <> Some (fst (unwrap_break (fst (always_testErr O true)))).
Proof.
  split; [reflexivity | ]. split; vm_compute; discriminate.
Qed.

(** C2, as the code has it.  [Do] returns; it never changes [RetryTimes] nor
    a function field that is set; when the cancellation signal has not fired
    at the start it stores the default in every function field that is nil,
    and otherwise it leaves the [Config] as it was; and a second run on the
    [Config] as the first run left it, from the same world, does what the
    first did. *)
Theorem Do_config {W : Type} (ctx : Context W) (fn : Operation W)
  (fuel : nat) (config : Config W) (w : W) :
  RetryTimes config <= int64_max ->
  (Z.to_nat (RetryTimes config) < fuel)%nat ->
  exists e s t,
    run_Do ctx fn fuel config w = Done e s t /\
    RetryTimes (st_config s) = RetryTimes config /\
    (forall r, OnRetry config = Some r -> OnRetry (st_config s) = Some r) /\
    (forall f, OnFailed config = Some f -> OnFailed (st_config s) = Some f) /\
    (forall d, DelayStrategy config = Some d ->
               DelayStrategy (st_config s) = Some d) /\
    (not_cancelled ctx w -> st_config s = with_defaults config) /\
    (ctx_Err ctx w <> Nil -> st_config s = config) /\
    run_Do ctx fn fuel (st_config s) w = Done e s t.
Proof.
  intros Hb Hfuel. destruct (ctx_Err_dec ctx w) as [Hstart | Hfired].
  - destruct (run_Do_Attempting ctx fn fuel config w Hstart Hb Hfuel)
      as (e & w' & t & Hrun & Hatt).
    do 3 eexists. split; [exact Hrun | ]. simpl.
    split; [reflexivity | ].
    split; [intros r Hr; unfold OnRetry_or_default; rewrite Hr; reflexivity | ].
    split; [intros f Hf; unfold OnFailed_or_default; rewrite Hf; reflexivity | ].
    split; [intros d Hd; unfold DelayStrategy_or_default; rewrite Hd;
            reflexivity | ].
    split; [reflexivity | ].
    split; [intros Hfired; unfold not_cancelled in Hstart; congruence | ].
    rewrite (run_Do_started ctx fn fuel (with_defaults config) w Hstart).
    rewrite with_defaults_idempotent.
    rewrite <- (run_Do_started ctx fn fuel config w Hstart). exact Hrun.
  - rewrite (run_Do_cancelled ctx fn fuel config w Hfired).
    do 3 eexists. split; [reflexivity | ]. simpl.
    repeat split; auto.
    + intros Hstart. unfold not_cancelled in Hstart. congruence.
    + apply run_Do_cancelled. exact Hfired.
Qed.

(** The zero [Config] of the test "default". *)
Lemma Do_config_witness :
  exists e s t,
    run_Do Background always_testErr 1 (NewConfig []) false = Done e s t /\
    RetryTimes (st_config s) = 0 /\
    st_config s = with_defaults (NewConfig []) /\
    run_Do Background always_testErr 1 (st_config s) false = Done e s t.
Proof.
  destruct (Do_config Background always_testErr 1 (NewConfig []) false)
    as (e & s & t & Hrun & Hb & _ & _ & _ & Hdef & _ & Hagain).
  - vm_compute. discriminate.
  - vm_compute. lia.
  - exists e, s, t. split; [exact Hrun | ].
    split; [exact Hb | ]. split; [apply Hdef; reflexivity | exact Hagain].
Defined.

(** C2 as stated fails: a run on the zero [Config] leaves a [Config] whose
    [OnRetry], [OnFailed] and [DelayStrategy] are no longer nil. *)
Lemma Do_config_changed :
  config_of (run_Do Background always_testErr 1 (NewConfig []) false)
  = Some (with_defaults (NewConfig [])) /\
  OnRetry (with_defaults (@NewConfig bool [])) <> OnRetry (@NewConfig bool [])
  /\
  config_of (run_Do Background always_testErr 1 (NewConfig []) false)
  <> Some (NewConfig []).
Proof.
  split; [reflexivity | ]. split; vm_compute; discriminate.
Qed.

(** ** The tests of [retry_test.go], replayed *)

(** "fixed delay 2": three retries allowed, success only on the fifth call. *)
Example test_fixed_delay_2 :
  run_Do Background (SuccessOnMaxCallFunc 5) 4
    (NewConfig [WithTimes 3;
                WithDelayStrategy (pure_strategy (FixedDelay 1000000000))])
    false
  = Done testErr
      (mkState
         (with_defaults
            (NewConfig
               [WithTimes 3;
                WithDelayStrategy (pure_strategy (FixedDelay 1000000000))]))
         false 4)
      [EvOp 0 testErr; EvFailed 0 testErr;
       EvDelay 0 testErr 1000000000; EvSelect 1000000000 TimerFired;
       EvRetry 1; EvOp 1 testErr; EvFailed 1 testErr;
       EvDelay 1 testErr 1000000000; EvSelect 1000000000 TimerFired;
       EvRetry 2; EvOp 2 testErr; EvFailed 2 testErr;
       EvDelay 2 testErr 1000000000; EvSelect 1000000000 TimerFired;
       EvRetry 3; EvOp 3 testErr; EvFailed 3 testErr].
Proof. reflexivity. Qed.

(** "linear delay with max": the waits are 1s, 2s and 2s. *)
Example test_linear_delay_with_max :
  trace_of
    (run_Do Background (SuccessOnMaxCallFunc 4) 6
       (NewConfig
          [WithTimes 5;
           WithDelayStrategy
             (pure_strategy (LinearDelay 1000000000 2000000000))])
       false)
  = [EvOp 0 testErr; EvFailed 0 testErr;
     EvDelay 0 testErr 1000000000; EvSelect 1000000000 TimerFired;
     EvRetry 1; EvOp 1 testErr; EvFailed 1 testErr;
     EvDelay 1 testErr 2000000000; EvSelect 2000000000 TimerFired;
     EvRetry 2; EvOp 2 testErr; EvFailed 2 testErr;
     EvDelay 2 testErr 2000000000; EvSelect 2000000000 TimerFired;
     EvRetry 3; EvOp 3 Nil].
Proof. vm_compute. reflexivity. Qed.

(** The package-level [Do] on the options of the test "default". *)
Example test_default :
  result_of (Do Background always_testErr 1 [] false) = Some testErr.
Proof. reflexivity. Qed.

(** ** The option builders and [NewConfig] *)

(** X1.  [NewConfig] applied to calls of the four option builders, in any
    number and order: every field of the [Config] has the argument of the
    last call of its builder, whatever calls of the other builders stand
    before, between or after, and the zero value ([0], nil) when its builder
    is not called. *)
Theorem NewConfig_last_call_wins {W : Type} (cs : list (option_call W)) :
  NewConfig (map option_of cs) =
  mkConfig (last_WithTimes cs 0)
           (last_WithOnRetryFunc cs None)
           (last_WithOnFailedFunc cs None)
           (last_WithDelayStrategy cs None).
Proof.
  unfold NewConfig.
  enough (Hfold : forall c : Config W,
             fold_left (fun config opt => opt config) (map option_of cs) c =
             mkConfig (last_WithTimes cs (RetryTimes c))
                      (last_WithOnRetryFunc cs (OnRetry c))
                      (last_WithOnFailedFunc cs (OnFailed c))
                      (last_WithDelayStrategy cs (DelayStrategy c)))
    by (rewrite Hfold; reflexivity).
  induction cs as [ | call cs IH]; intros c.
  - destruct c; reflexivity.
  - simpl. rewrite IH. destruct call; reflexivity.
Qed.

(** ** More on the delay strategies *)

Lemma clamp_within (p maxDelay : Z) :
  (if (maxDelay <? p) || (p <? 0) then maxDelay else p) <= maxDelay /\
  (0 <= maxDelay ->
   0 <= (if (maxDelay <? p) || (p <? 0) then maxDelay else p)).
Proof.
  destruct (maxDelay <? p) eqn:Hgt; destruct (p <? 0) eqn:Hneg; simpl; lia.
Qed.

(** X2.  Whatever the base delay and the attempt index, overflow included,
    [LinearDelay] never returns more than [maxDelay], and it never returns a
    negative delay unless [maxDelay] is negative. *)
Theorem LinearDelay_within_cap (baseDelay maxDelay n : Z) (err : error) :
  LinearDelay baseDelay maxDelay n err <= maxDelay /\
  (0 <= maxDelay -> 0 <= LinearDelay baseDelay maxDelay n err).
Proof.
  rewrite LinearDelay_product. cbv zeta.
  destruct (maxDelay <? wrap64 (baseDelay * (n + 1))) eqn:Hgt;
    destruct (wrap64 (baseDelay * (n + 1)) <? 0) eqn:Hneg; simpl; lia.
Qed.

(** X3.  With a base delay that is not negative and products that fit a
    duration, [LinearDelay] does not decrease from one attempt to a later
    one. *)
Theorem LinearDelay_monotone (baseDelay maxDelay n m : Z) (err : error) :
  0 <= baseDelay ->
  0 <= n <= m ->
  baseDelay * (m + 1) <= int64_max ->
  LinearDelay baseDelay maxDelay n err <= LinearDelay baseDelay maxDelay m err.
Proof.
  intros Hb Hnm Hfit. rewrite !LinearDelay_product. cbv zeta.
  rewrite !wrap64_id by (unfold in_int64, int64_min; nia).
  rewrite !clamp_min by nia.
  apply Z.min_le_compat_r. nia.
Qed.

(** One second of base delay under a cap of two seconds: attempts 0 and 2. *)
Lemma LinearDelay_monotone_witness :
  LinearDelay 1000000000 2000000000 0 testErr
  <= LinearDelay 1000000000 2000000000 2 testErr.
Proof.
  apply (LinearDelay_monotone 1000000000 2000000000 0 2 testErr);
    unfold int64_max; lia.
Defined.

(** X4.  For a shift count that is not negative, [ExponentialDelay] returns
    (it does not panic), never more than [maxDelay], and never a negative
    delay unless [maxDelay] is negative, overflow included. *)
Theorem ExponentialDelay_within_cap (baseDelay maxDelay n : Z) (err : error) :
  0 <= n ->
  exists delay,
    ExponentialDelay baseDelay maxDelay n err = Returns delay /\
    delay <= maxDelay /\
    (0 <= maxDelay -> 0 <= delay).
Proof.
  intros Hn. rewrite ExponentialDelay_product by exact Hn. cbv zeta.
  eexists. split; [reflexivity | apply clamp_within].
Qed.

Lemma ExponentialDelay_within_cap_witness :
  exists delay,
    ExponentialDelay 1000000000 3000000000 40 testErr = Returns delay /\
    delay <= 3000000000 /\
    (0 <= 3000000000 -> 0 <= delay).
Proof.
  apply (ExponentialDelay_within_cap 1000000000 3000000000 40 testErr). lia.
Defined.

Lemma wrap64_multiple (a : Z) : wrap64 (a * 2 ^ 64) = 0.
Proof.
  unfold wrap64. rewrite Z.add_comm, Z.mod_add by lia.
  rewrite Z.mod_small by lia. lia.
Qed.

(** X5.  From the 64th retry on, the shift of [ExponentialDelay] has lost
    every bit of the base delay: whatever the base delay, the delay is zero
    when [maxDelay] is not negative. *)
Theorem ExponentialDelay_shifted_out (baseDelay maxDelay n : Z) (err : error) :
  64 <= n ->
  0 <= maxDelay ->
  ExponentialDelay baseDelay maxDelay n err = Returns 0.
Proof.
  intros Hn Hmax. rewrite ExponentialDelay_product by lia. cbv zeta.
  replace n with ((n - 64) + 64) by lia.
  rewrite Z.pow_add_r by lia. rewrite Z.mul_assoc, wrap64_multiple.
  replace (maxDelay <? 0) with false by (symmetry; apply Z.ltb_ge; lia).
  reflexivity.
Qed.

(** One second of base delay, a cap of one minute, attempt 64. *)
Lemma ExponentialDelay_shifted_out_witness :
  ExponentialDelay 1000000000 60000000000 64 testErr = Returns 0.
Proof.
  apply (ExponentialDelay_shifted_out 1000000000 60000000000 64 testErr); lia.
Defined.

(** X6.  Below the cap [ExponentialDelay] doubles from one attempt to the
    next: when the base delay is not negative and [baseDelay * 2^(n+1)]
    exceeds neither [maxDelay] nor the range of a duration, attempt [n]
    gives [baseDelay * 2^n] and attempt [n+1] twice as much. *)
Theorem ExponentialDelay_doubles (baseDelay maxDelay n : Z) (err : error) :
  0 <= n ->
  0 <= baseDelay ->
  baseDelay * 2 ^ (n + 1) <= maxDelay ->
  maxDelay <= int64_max ->
  ExponentialDelay baseDelay maxDelay n err = Returns (baseDelay * 2 ^ n) /\
  ExponentialDelay baseDelay maxDelay (n + 1) err =
  Returns (2 * (baseDelay * 2 ^ n)).
Proof.
  intros Hn Hb Hcap Hmax.
  assert (Hpow : 0 < 2 ^ n) by (apply Z.pow_pos_nonneg; lia).
  assert (Hnext : 2 ^ (n + 1) = 2 * 2 ^ n)
    by (rewrite Z.pow_add_r by lia; lia).
  rewrite !ExponentialDelay_product by lia. cbv zeta.
  rewrite Hnext in *.
  rewrite !wrap64_id by (unfold in_int64, int64_min; nia).
  rewrite !clamp_min by nia.
  split; f_equal; lia.
Qed.

(** One second of base delay under a cap of five seconds: 1s, then 2s. *)
Lemma ExponentialDelay_doubles_witness :
  ExponentialDelay 1000000000 5000000000 0 testErr
  = Returns (1000000000 * 2 ^ 0) /\
  ExponentialDelay 1000000000 5000000000 (0 + 1) testErr
  = Returns (2 * (1000000000 * 2 ^ 0)).
Proof.
  apply (ExponentialDelay_doubles 1000000000 5000000000 0 testErr);
    unfold int64_max; lia.
Defined.

(** The bounds of [TestRandomDelay]: 100ms and 200ms. *)
Lemma RandomDelay_in_range_witness :
  exists d,
    RandomDelay 100000000 200000000 12345 0 testErr = Returns d /\
    fst (RandomDelay_bounds 100000000 200000000) <= d
      <= snd (RandomDelay_bounds 100000000 200000000) /\
    (fst (RandomDelay_bounds 100000000 200000000)
     = snd (RandomDelay_bounds 100000000 200000000) ->
     d = fst (RandomDelay_bounds 100000000 200000000)).
Proof.
  apply (RandomDelay_in_range 100000000 200000000 12345 0 testErr);
    vm_compute; try split; try discriminate; reflexivity.
Defined.

(** ** More on what every run does *)

Lemma waits_app (t1 t2 : list event) : waits (t1 ++ t2) = waits t1 ++ waits t2.
Proof. apply flat_map_app. Qed.

Lemma delay_results_app (t1 t2 : list event) :
  delay_results (t1 ++ t2) = delay_results t1 ++ delay_results t2.
Proof. apply flat_map_app. Qed.

Lemma retry_events_waits (n : Z) : waits (retry_events n) = [].
Proof. unfold retry_events. destruct (0 <? n); reflexivity. Qed.

Lemma retry_events_delay_results (n : Z) : delay_results (retry_events n) = [].
Proof. unfold retry_events. destruct (0 <? n); reflexivity. Qed.

#[local] Hint Rewrite waits_app delay_results_app retry_events_waits
  retry_events_delay_results : trace.

Lemma unwrapped_retryable (raw : error) : retryable raw -> unwrapped raw = raw.
Proof. destruct raw; simpl; intros; try contradiction; reflexivity. Qed.

Lemma retryable_unmarked (raw : error) : retryable raw -> marked raw = false.
Proof. destruct raw; simpl; intros; try contradiction; reflexivity. Qed.


Section RunFacts.

Context {W : Type} (ctx : Context W) (fn : Operation W).
Variables (r : OnRetryFunc W) (f : OnFailedFunc W) (d : DelayStrategyFunc W).
Variable b : Z.

Ltac by_attempts H :=
  induction H as [n k w raw w2 Hfn Hnil
                 | n k w raw w2 Hfn Hnn Hlast
                 | n k w raw w2 dl0 w4 w5 Hfn Hraw Hlt Hdl Hsel
                 | n k w raw w2 dl0 w4 w5 e w' t Hfn Hraw Hlt Hdl Hsel Hrun IH].

Lemma Attempting_bounded n k w e w' t :
  Attempting ctx fn r f d b n k w e w' t ->
  (List.length (op_results t) <= S (Z.to_nat (b - n)))%nat.
Proof.
  intros H. by_attempts H; autorewrite with trace; simpl; lia.
Qed.



Lemma Attempting_earlier_retryable n k w e w' t :
  Attempting ctx fn r f d b n k w e w' t ->
  Forall retryable (removelast (op_results t)).
Proof.
  intros H. by_attempts H; autorewrite with trace; simpl; try constructor.
  pose proof (Attempting_ops _ _ _ _ _ _ _ _ _ _ _ _ Hrun) as Hne.
  destruct (op_results t) as [ | x l]; [congruence | ].
  constructor; assumption.
Qed.

Lemma Attempting_result n k w e w' t :
  Attempting ctx fn r f d b n k w e w' t ->
  cancellations t = [] ->
  e = unwrapped (last (op_results t) Nil).
Proof.
  intros H. by_attempts H; autorewrite with trace; simpl; intros Hc;
    try discriminate; unfold unwrapped.
  - symmetry. exact Hnil.
  - reflexivity.
  - rewrite (IH Hc).
    pose proof (Attempting_ops _ _ _ _ _ _ _ _ _ _ _ _ Hrun) as Hne.
    destruct (op_results t) as [ | x l]; [congruence | reflexivity].
Qed.


Lemma Attempting_fixed_waits (d0 : Duration) n k w e w' t :
  (forall n err w, fst (d n err w) = d0) ->
  Attempting ctx fn r f d b n k w e w' t ->
  waits t = repeat d0 (List.length (waits t)).
Proof.
  intros Hd H. by_attempts H; autorewrite with trace; simpl; try reflexivity.
  - pose proof (Hd n raw (f n raw w2)) as Hfix. rewrite Hdl in Hfix.
    simpl in Hfix. subst dl0. reflexivity.
  - pose proof (Hd n raw (f n raw w2)) as Hfix. rewrite Hdl in Hfix.
    simpl in Hfix. subst dl0. rewrite <- IH. reflexivity.
Qed.

Lemma Attempting_unmarked n k w e w' t :
  (forall k w, marked_once (fst (fn k w))) ->
  (forall w, marked (ctx_Err ctx w) = false) ->
  Attempting ctx fn r f d b n k w e w' t ->
  marked e = false /\
  Forall (fun call => marked (snd call) = false) (failed_calls t).
Proof.
  intros Hfn0 Hctx H.
  by_attempts H; autorewrite with trace; simpl.
  - split; [reflexivity | constructor].
  - pose proof (Hfn0 k (retry_world r n w)) as Hm. rewrite Hfn in Hm.
    simpl in Hm.
    assert (Hu : marked (fst (unwrap_break raw)) = false)
      by (destruct raw; simpl in *; [reflexivity | reflexivity | exact Hm]).
    split; [exact Hu | constructor; [exact Hu | constructor]].
  - split; [apply Hctx | ].
    constructor; [apply retryable_unmarked; exact Hraw | constructor].
  - destruct IH as (He & Hall). split; [exact He | ].
    constructor; [apply retryable_unmarked; exact Hraw | exact Hall].
Qed.


End RunFacts.

(** Every run of [Config.Do] with fuel enough: either the signal had fired
    and nothing happened, or the defaults are stored and the attempts run. *)
Lemma run_Do_cases {W : Type} (ctx : Context W) (fn : Operation W)
  (fuel : nat) (config : Config W) (w : W) :
  RetryTimes config <= int64_max ->
  (Z.to_nat (RetryTimes config) < fuel)%nat ->
  exists e s t,
    run_Do ctx fn fuel config w = Done e s t /\
    ((ctx_Err ctx w <> Nil /\ e = ctx_Err ctx w /\ t = []) \/
     (not_cancelled ctx w /\
      exists w',
        Attempting ctx fn (OnRetry_or_default config)
          (OnFailed_or_default config) (DelayStrategy_or_default config)
          (RetryTimes config) 0 O w e w' t)).
Proof.
  intros Hb Hfuel. destruct (ctx_Err_dec ctx w) as [Hstart | Hfired].
  - destruct (run_Do_Attempting ctx fn fuel config w Hstart Hb Hfuel)
      as (e & w' & t & Hrun & Hatt).
    do 3 eexists. split; [exact Hrun | ]. right. split; [exact Hstart | ].
    exists w'. exact Hatt.
  - rewrite (run_Do_cancelled ctx fn fuel config w Hfired).
    do 3 eexists. split; [reflexivity | ]. left. auto.
Qed.

(** ** More on [Config.Do] *)

(** X8.  [Do] returns, and in every run the operation is invoked at most
    [RetryTimes + 1] times, at most once when [RetryTimes] is not positive,
    and at least once unless the signal had fired before the start. *)
Theorem Do_invocations_bounded {W : Type} (ctx : Context W) (fn : Operation W)
  (fuel : nat) (config : Config W) (w : W) :
  RetryTimes config <= int64_max ->
  (Z.to_nat (RetryTimes config) < fuel)%nat ->
  exists e s t,
    run_Do ctx fn fuel config w = Done e s t /\
    (List.length (op_results t) <= S (Z.to_nat (RetryTimes config)))%nat /\
    (not_cancelled ctx w -> (1 <= List.length (op_results t))%nat).
Proof.
  intros Hb Hfuel.
  destruct (run_Do_cases ctx fn fuel config w Hb Hfuel)
    as (e & s & t & Hrun & [(Hfired & He & Ht) | (Hstart & w' & Hatt)]).
  - exists e, s, t. split; [exact Hrun | ]. subst t. simpl. split; [lia | ].
    intros Hstart. unfold not_cancelled in Hstart. congruence.
  - exists e, s, t. split; [exact Hrun | ].
    pose proof (Attempting_bounded _ _ _ _ _ _ _ _ _ _ _ _ Hatt) as Hle.
    pose proof (Attempting_ops _ _ _ _ _ _ _ _ _ _ _ _ Hatt) as Hne.
    rewrite Z.sub_0_r in Hle. split; [exact Hle | ].
    intros _. destruct (op_results t); [congruence | simpl; lia].
Qed.

(** The test "fixed delay 1": three retries allowed, success on call 2. *)
Lemma Do_invocations_bounded_witness :
  exists e s t,
    run_Do Background (SuccessOnMaxCallFunc 2) 4 (NewConfig [WithTimes 3]) false
    = Done e s t /\
    (List.length (op_results t) <= S (Z.to_nat 3))%nat /\
    (not_cancelled Background false -> (1 <= List.length (op_results t))%nat).
Proof.
  apply (Do_invocations_bounded Background (SuccessOnMaxCallFunc 2) 4
           (NewConfig [WithTimes 3]) false).
  - vm_compute. discriminate.
  - vm_compute. lia.
Defined.





(** X11.  [Do] returns, and in every run every invocation of the operation
    that is followed by another one returned a retryable error: the engine
    never calls the operation again after a success or after an error marked
    by [Break]. *)
Theorem Do_retries_only_retryable {W : Type} (ctx : Context W)
  (fn : Operation W) (fuel : nat) (config : Config W) (w : W) :
  RetryTimes config <= int64_max ->
  (Z.to_nat (RetryTimes config) < fuel)%nat ->
  exists e s t,
    run_Do ctx fn fuel config w = Done e s t /\
    Forall retryable (removelast (op_results t)).
Proof.
  intros Hb Hfuel.
  destruct (run_Do_cases ctx fn fuel config w Hb Hfuel)
    as (e & s & t & Hrun & [(Hfired & He & Ht) | (Hstart & w' & Hatt)]);
    exists e, s, t; (split; [exact Hrun | ]).
  - subst t. constructor.
  - exact (Attempting_earlier_retryable _ _ _ _ _ _ _ _ _ _ _ _ Hatt).
Qed.

Lemma Do_retries_only_retryable_witness :
  exists e s t,
    run_Do Background (SuccessOnMaxCallFunc 3) 4 (NewConfig [WithTimes 3]) false
    = Done e s t /\
    Forall retryable (removelast (op_results t)).
Proof.
  apply (Do_retries_only_retryable Background (SuccessOnMaxCallFunc 3) 4
           (NewConfig [WithTimes 3]) false).
  - vm_compute. discriminate.
  - vm_compute. lia.
Defined.

(** X12.  [Do] returns, and when the signal had not fired at the start and
    no wait is lost to it, the result is the error of the last invocation of
    the operation, the mark of [Break] taken off: the signal is not looked at
    after an attempt that ends the run. *)
Theorem Do_result_of_last_attempt {W : Type} (ctx : Context W)
  (fn : Operation W) (fuel : nat) (config : Config W) (w : W) :
  RetryTimes config <= int64_max ->
  (Z.to_nat (RetryTimes config) < fuel)%nat ->
  not_cancelled ctx w ->
  exists e s t,
    run_Do ctx fn fuel config w = Done e s t /\
    (cancellations t = [] -> e = unwrapped (last (op_results t) Nil)).
Proof.
  intros Hb Hfuel Hstart.
  destruct (run_Do_cases ctx fn fuel config w Hb Hfuel)
    as (e & s & t & Hrun & [(Hfired & He & Ht) | (_ & w' & Hatt)]);
    exists e, s, t; (split; [exact Hrun | ]).
  - unfold not_cancelled in Hstart. congruence.
  - exact (Attempting_result _ _ _ _ _ _ _ _ _ _ _ _ Hatt).
Qed.

(** A signal that fires as soon as the engine waits, and a budget of 0: the
    engine never waits, and the result is the error of the operation. *)
Lemma Do_result_of_last_attempt_witness :
  exists e s t,
    run_Do cancel_on_wait always_testErr 1 (NewConfig []) false = Done e s t /\
    cancellations t = [] /\
    e = testErr.
Proof.
  destruct (Do_result_of_last_attempt cancel_on_wait always_testErr 1
              (NewConfig []) false)
    as (e & s & t & Hrun & Hres).
  - vm_compute. discriminate.
  - vm_compute. lia.
  - reflexivity.
  - exists e, s, t. split; [exact Hrun | ].
    assert (Hc : cancellations t = [])
      by (vm_compute in Hrun; injection Hrun as _ _ Ht; rewrite <- Ht;
          reflexivity).
    split; [exact Hc | ].
    rewrite (Hres Hc).
    vm_compute in Hrun. injection Hrun as _ _ Ht. rewrite <- Ht. reflexivity.
Defined.





(** X14.  [Do] returns, and with [FixedDelay(d)] as the delay strategy every
    wait of the run is on a timer of [d]; with no delay strategy set, every
    wait is on a timer of zero. *)
Theorem Do_fixed_waits {W : Type} (ctx : Context W) (fn : Operation W)
  (fuel : nat) (config : Config W) (w : W) :
  RetryTimes config <= int64_max ->
  (Z.to_nat (RetryTimes config) < fuel)%nat ->
  exists e s t,
    run_Do ctx fn fuel config w = Done e s t /\
    (forall delay,
       DelayStrategy config = Some (pure_strategy (FixedDelay delay)) ->
       waits t = repeat delay (List.length (waits t))) /\
    (DelayStrategy config = None ->
     waits t = repeat 0 (List.length (waits t))).
Proof.
  intros Hb Hfuel.
  destruct (run_Do_cases ctx fn fuel config w Hb Hfuel)
    as (e & s & t & Hrun & [(Hfired & He & Ht) | (Hstart & w' & Hatt)]);
    exists e, s, t; (split; [exact Hrun | ]).
  - subst t. split; intros; reflexivity.
  - split.
    + intros delay Hd.
      assert (Hfix : forall n err w0,
                 fst (DelayStrategy_or_default config n err w0) = delay)
        by (unfold DelayStrategy_or_default; rewrite Hd; reflexivity).
      exact (Attempting_fixed_waits _ _ _ _ _ _ delay _ _ _ _ _ _ Hfix Hatt).
    + intros Hd.
      assert (Hfix : forall n err w0,
                 fst (DelayStrategy_or_default config n err w0) = 0)
        by (unfold DelayStrategy_or_default; rewrite Hd; reflexivity).
      exact (Attempting_fixed_waits _ _ _ _ _ _ 0 _ _ _ _ _ _ Hfix Hatt).
Qed.

(** The test "fixed delay 1" and the test "all failed", which sets no delay
    strategy. *)
Lemma Do_fixed_waits_witness :
  (exists e s t,
     run_Do Background (SuccessOnMaxCallFunc 2) 4
       (NewConfig
          [WithTimes 3;
           WithDelayStrategy (pure_strategy (FixedDelay 1000000000))])
       false = Done e s t /\
     waits t = [1000000000]) /\
  (exists e s t,
     run_Do Background always_testErr 11 (NewConfig [WithTimes 10]) false
     = Done e s t /\
     waits t = repeat 0 10).
Proof.
  split.
  - destruct (Do_fixed_waits Background (SuccessOnMaxCallFunc 2) 4
                (NewConfig
                   [WithTimes 3;
                    WithDelayStrategy (pure_strategy (FixedDelay 1000000000))])
                false)
      as (e & s & t & Hrun & Hfixed & _).
    + vm_compute. discriminate.
    + vm_compute. lia.
    + exists e, s, t. split; [exact Hrun | ].
      rewrite (Hfixed 1000000000 eq_refl).
      vm_compute in Hrun. injection Hrun as _ _ Ht. rewrite <- Ht. reflexivity.
  - destruct (Do_fixed_waits Background always_testErr 11
                (NewConfig [WithTimes 10]) false)
      as (e & s & t & Hrun & _ & Hdefault).
    + vm_compute. discriminate.
    + vm_compute. lia.
    + exists e, s, t. split; [exact Hrun | ].
      rewrite (Hdefault eq_refl).
      vm_compute in Hrun. injection Hrun as _ _ Ht. rewrite <- Ht. reflexivity.
Defined.

(** X15.  [Do] returns, and the mark of [Break] does not leak: when the
    operation never returns a [Break] of a [Break] and the error of the
    signal carries no mark, neither the result of [Do] nor any error passed
    to [OnFailed] carries the mark. *)
Theorem Do_unmarked {W : Type} (ctx : Context W) (fn : Operation W)
  (fuel : nat) (config : Config W) (w : W) :
  RetryTimes config <= int64_max ->
  (Z.to_nat (RetryTimes config) < fuel)%nat ->
  (forall k w, marked_once (fst (fn k w))) ->
  (forall w, marked (ctx_Err ctx w) = false) ->
  exists e s t,
    run_Do ctx fn fuel config w = Done e s t /\
    marked e = false /\
    Forall (fun call => marked (snd call) = false) (failed_calls t).
Proof.
  intros Hb Hfuel Hfn Hctx.
  destruct (run_Do_cases ctx fn fuel config w Hb Hfuel)
    as (e & s & t & Hrun & [(Hfired & He & Ht) | (Hstart & w' & Hatt)]);
    exists e, s, t; (split; [exact Hrun | ]).
  - subst e t. split; [apply Hctx | constructor].
  - exact (Attempting_unmarked _ _ _ _ _ _ _ _ _ _ _ _ Hfn Hctx Hatt).
Qed.

(** The test "break with error". *)
Lemma Do_unmarked_witness :
  exists e s t,
    run_Do Background (always_Break testErr) 11 (NewConfig [WithTimes 10]) false
    = Done e s t /\
    marked e = false /\
    Forall (fun call => marked (snd call) = false) (failed_calls t).
Proof.
  apply (Do_unmarked Background (always_Break testErr) 11
           (NewConfig [WithTimes 10]) false).
  - vm_compute. discriminate.
  - vm_compute. lia.
  - intros k w. reflexivity.
  - intros w. reflexivity.
Defined.

(** ** The operation of the tests under [Config.Do] *)





(** ** The package-level [Do] *)

Lemma RetryTimes_without_WithTimes {W : Type} (cs : list (option_call W)) :
  (forall retryTimes, ~ In (CallWithTimes retryTimes) cs) ->
  forall c : Config W,
    RetryTimes (fold_left (fun config opt => opt config) (map option_of cs) c)
    = RetryTimes c.
Proof.
  induction cs as [ | call cs IH]; intros Habsent c; [reflexivity | ].
  assert (Hrest : forall retryTimes, ~ In (CallWithTimes retryTimes) cs)
    by (intros retryTimes Hin; apply (Habsent retryTimes); right; exact Hin).
  simpl. rewrite (IH Hrest).
  destruct call as [retryTimes | fn | fn | delayType]; try reflexivity.
  exfalso. apply (Habsent retryTimes). left. reflexivity.
Qed.

(** X17.  The package-level [Do] called with options among which there is no
    [WithTimes], the signal not fired at the start: the operation is invoked
    exactly once, [OnRetry] is not called, the engine does not wait, and the
    result is the error of that one attempt, the mark of [Break] taken
    off. *)
Theorem Do_without_WithTimes {W : Type} (ctx : Context W) (fn : Operation W)
  (fuel : nat) (cs : list (option_call W)) (w : W) :
  (forall retryTimes, ~ In (CallWithTimes retryTimes) cs) ->
  (0 < fuel)%nat ->
  not_cancelled ctx w ->
  exists e s t,
    Do ctx fn fuel (map option_of cs) w = Done e s t /\
    op_results t = [fst (fn O w)] /\
    retry_calls t = [] /\
    waits t = [] /\
    e = unwrapped (fst (fn O w)).
Proof.
  intros Habsent Hfuel Hstart. unfold Do.
  assert (Hb : RetryTimes (NewConfig (map option_of cs)) = 0).
  { unfold NewConfig.
    rewrite (RetryTimes_without_WithTimes cs Habsent). reflexivity. }
  destruct (run_Do_Attempting ctx fn fuel (NewConfig (map option_of cs)) w
              Hstart)
    as (e & w' & t & Hrun & Hatt);
    [rewrite Hb; unfold int64_max; lia | rewrite Hb; simpl; lia | ].
  apply Attempting_last_attempt in Hatt; [ | rewrite Hb; lia].
  change (retry_world (OnRetry_or_default (NewConfig (map option_of cs))) 0 w)
    with w in Hatt.
  destruct Hatt as (He & _ & Ht).
  do 3 eexists. split; [exact Hrun | ].
  rewrite Ht. simpl. destruct (is_nil e); simpl; repeat split; exact He.
Qed.

(** The test "default", with observers set and no [WithTimes]. *)
Lemma Do_without_WithTimes_witness :
  exists e s t,
    Do Background always_testErr 1
      (map option_of
         [CallWithOnRetryFunc (fun n fired => fired);
          CallWithDelayStrategy (pure_strategy (FixedDelay 1000000000))])
      false = Done e s t /\
    op_results t = [testErr] /\
    retry_calls t = [] /\
    waits t = [] /\
    e = testErr.
Proof.
  apply (Do_without_WithTimes Background always_testErr 1
           [CallWithOnRetryFunc (fun n fired => fired);
            CallWithDelayStrategy (pure_strategy (FixedDelay 1000000000))]
           false).
  - intros retryTimes [Hin | [Hin | []]]; discriminate.
  - lia.
  - reflexivity.
Defined.
